(** * live_advance.py: the live mental-command session

    A shallow embedding of the [LiveAdvance] class: the profile lifecycle
    callbacks bound to the Cortex client, and the command smoothing and
    forwarding handler [on_new_com_data].

    Conventions of the embedding.
    - A method of the class is a computation in the monad [M]: it reads and
      updates the instance ([self]), records the calls it makes on the
      outside world (the Cortex client, the log file, the socket) in a
      trace, and either returns or raises.
    - What the outside world answers is an input: the reading of
      [time.time()], whether [open]/[write] on the log file raise, whether
      [connect]/[sendall] on the socket raise (record [world]).
    - Clock readings are rationals.  Console output ([print]) is not part
      of the trace.  Action labels are byte strings, lower-cased on the
      ASCII letters. *)

From Stdlib Require Import QArith Lqa Ascii String.
From stdpp Require Import gmap strings list.

Local Set Warnings "-register-all".
Local Open Scope string_scope.

(** ** Python values and exceptions *)

Module Py.

Inductive pyval : Type :=
  | VNone
  | VBool (b : bool)
  | VInt (z : Z)
  | VFloat (q : Q)
  | VStr (s : string)
  | VList (l : list pyval)
  | VDict (d : gmap string pyval).

Inductive exn : Type :=
  | ValueError (msg : string)
  | AttributeError
  | KeyError
  | OSError.

(** [bool(v)]: what [if v:] tests. *)
Definition truthy (v : pyval) : bool :=
  match v with
  | VNone => false
  | VBool b => b
  | VInt z => negb (Z.eqb z 0)
  | VFloat q => negb (Qeq_bool q 0)
  | VStr s => negb (String.eqb s "")
  | VList l => match l with [] => false | _ :: _ => true end
  | VDict d => negb (Nat.eqb (size d) 0)
  end.

(** [isinstance(v, list)] *)
Definition isinstance_list (v : pyval) : bool :=
  match v with
  | VList _ => true
  | _ => false
  end.

(** [v.get(key, default)]: only a dict has the method. *)
Definition get (v : pyval) (key : string) (default : pyval) : exn + pyval :=
  match v with
  | VDict d => inr (match d !! key with Some x => x | None => default end)
  | _ => inl AttributeError
  end.

Definition lower_ascii (c : ascii) : ascii :=
  let n := nat_of_ascii c in
  if (65 <=? n)%nat && (n <=? 90)%nat then ascii_of_nat (n + 32) else c.

Fixpoint lower_string (s : string) : string :=
  match s with
  | EmptyString => EmptyString
  | String c s' => String (lower_ascii c) (lower_string s')
  end.

(** [v.lower()]: only a str has the method. *)
Definition lower (v : pyval) : exn + string :=
  match v with
  | VStr s => inr (lower_string s)
  | _ => inl AttributeError
  end.

(** [s.encode('utf-8')] of a byte string *)
Definition encode_utf8 (s : string) : list Byte.byte := list_byte_of_string s.

(** [x in l] for a list of strings *)
Definition contains (x : string) (l : list string) : bool :=
  existsb (String.eqb x) l.

End Py.
Export Py.

(** ** The bounded history: [deque(maxlen=40)] *)

Module Deque.

Definition maxlen : nat := 40.

(** [d.append(x)]: a full deque drops its leftmost item first. *)
Definition append (x : string) (d : list string) : list string :=
  if (maxlen <=? length d)%nat then tail d ++ [x] else d ++ [x].

(** [d.count(x)] *)
Fixpoint count (x : string) (d : list string) : nat :=
  match d with
  | [] => 0
  | y :: d' => (if String.eqb y x then 1 else 0) + count x d'
  end.

(** The deque after appending [xs], left to right, to the empty deque. *)
Definition feed (xs : list string) : list string :=
  foldl (fun d x => append x d) [] xs.

End Deque.

(** ** The outside world *)

Inductive cortex_call : Type :=
  | set_wanted_profile (name : string)
  | set_wanted_headset (headsetId : string)
  | open
  | query_profile
  | get_current_profile
  | setup_profile (name : string) (status : string)
  | sub_request (streams : list string)
  | get_mental_command_active_action (name : string)
  | get_mental_command_action_sensitivity (name : string)
  | set_mental_command_action_sensitivity (name : string) (values : list Z)
  | disconnect_headset.

(** The calls a method makes, in program order.  A call that raises is
    recorded too: the trace says what was attempted. *)
Inductive call : Type :=
  | Cortex (c : cortex_call)
  | FileOpen (path : string) (mode : string)
  | FileWrite (text : string)
  | FileClose
  | SocketNew
  | SocketConnect (host : string) (port : Z)
  | SocketSendall (payload : list Byte.byte)
  | SocketClose.

Inductive file_answer : Type := FileOk | OpenRaises | WriteRaises.
Inductive socket_answer : Type := SocketOk | ConnectRaises | SendallRaises.

Record world : Type := World {
  clock : Q;
  file : file_answer;
  sock : socket_answer
}.

(** ** The instance and the method monad *)

Record LiveAdvance : Type := Self {
  profile_name : option string;          (* unset until [start] *)
  profile_lists : option (list string);  (* unset until the catalog arrives *)
  command_history : list string;
  last_print_time : Q
}.

Definition target_words : list string :=
  ["drop"; "right"; "left"; "lift"; "neutral"].

Definition __init__ : LiveAdvance :=
  {| profile_name := None;
     profile_lists := None;
     command_history := [];
     last_print_time := 0 |}.

Record run (A : Type) : Type := Run {
  value : exn + A;
  after : LiveAdvance;
  calls : list call
}.
Arguments Run {A} _ _ _.
Arguments value {A} _.
Arguments after {A} _.
Arguments calls {A} _.

Definition M (A : Type) : Type := LiveAdvance -> run A.

Definition ret {A} (a : A) : M A := fun self => Run (inr a) self [].

Definition bind {A B} (m : M A) (f : A -> M B) : M B :=
  fun self =>
    match m self with
    | Run (inl e) self' cs => Run (inl e) self' cs
    | Run (inr a) self' cs =>
        match f a self' with
        | Run v self'' cs' => Run v self'' (cs ++ cs')
        end
    end.

#[global] Instance M_ret : MRet M := @ret.
#[global] Instance M_bind : MBind M := fun A B f m => bind m f.

Definition raise {A} (e : exn) : M A := fun self => Run (inl e) self [].
Definition lift {A} (x : exn + A) : M A :=
  match x with inl e => raise e | inr a => ret a end.
Definition do_call (c : call) : M unit := fun self => Run (inr tt) self [c].
Definition read {A} (field : LiveAdvance -> A) : M A :=
  fun self => Run (inr (field self)) self [].
Definition update (f : LiveAdvance -> LiveAdvance) : M unit :=
  fun self => Run (inr tt) (f self) [].

(** Reading an attribute that was never assigned raises. *)
Definition read_attr {A} (field : LiveAdvance -> option A) : M A :=
  fun self =>
    match field self with
    | Some a => Run (inr a) self []
    | None => Run (inl AttributeError) self []
    end.

Definition set_profile_name (v : string) (self : LiveAdvance) : LiveAdvance :=
  {| profile_name := Some v;
     profile_lists := profile_lists self;
     command_history := command_history self;
     last_print_time := last_print_time self |}.

Definition set_profile_lists (v : list string) (self : LiveAdvance) : LiveAdvance :=
  {| profile_name := profile_name self;
     profile_lists := Some v;
     command_history := command_history self;
     last_print_time := last_print_time self |}.

Definition set_command_history (v : list string) (self : LiveAdvance) : LiveAdvance :=
  {| profile_name := profile_name self;
     profile_lists := profile_lists self;
     command_history := v;
     last_print_time := last_print_time self |}.

Definition set_last_print_time (v : Q) (self : LiveAdvance) : LiveAdvance :=
  {| profile_name := profile_name self;
     profile_lists := profile_lists self;
     command_history := command_history self;
     last_print_time := v |}.

Definition returned {A} (r : run A) : bool :=
  match value r with inr _ => true | inl _ => false end.

(** ** Methods of [LiveAdvance] *)

Definition start (profile_name headsetId : string) : M unit :=
  if String.eqb profile_name "" then
    raise (ValueError "Empty profile_name. The profile_name cannot be empty.")
  else
    update (set_profile_name profile_name);;
    do_call (Cortex (set_wanted_profile profile_name));;
    (if negb (String.eqb headsetId "")
     then do_call (Cortex (set_wanted_headset headsetId))
     else ret tt);;
    do_call (Cortex open).

Definition load_profile (profile_name : string) : M unit :=
  do_call (Cortex (setup_profile profile_name "load")).

Definition unload_profile (profile_name : string) : M unit :=
  do_call (Cortex (setup_profile profile_name "unload")).

Definition save_profile (profile_name : string) : M unit :=
  do_call (Cortex (setup_profile profile_name "save")).

Definition subscribe_data (streams : list string) : M unit :=
  do_call (Cortex (sub_request streams)).

Definition get_active_action (profile_name : string) : M unit :=
  do_call (Cortex (get_mental_command_active_action profile_name)).

Definition get_sensitivity (profile_name : string) : M unit :=
  do_call (Cortex (get_mental_command_action_sensitivity profile_name)).

Definition set_sensitivity (profile_name : string) (values : list Z) : M unit :=
  do_call (Cortex (set_mental_command_action_sensitivity profile_name values)).

(** *** Lifecycle callbacks *)

Definition on_create_session_done : M unit :=
  do_call (Cortex query_profile).

Definition on_query_profile_done (data : list string) : M unit :=
  update (set_profile_lists data);;
  name ← read_attr profile_name;
  lists ← read_attr profile_lists;
  if contains name lists then
    do_call (Cortex get_current_profile)
  else
    do_call (Cortex (setup_profile name "create")).

Definition on_load_unload_profile_done (is_loaded : bool) : M unit :=
  if is_loaded then
    name ← read_attr profile_name;
    get_active_action name
  else
    _ ← read_attr profile_name;
    update (set_profile_name "").

Definition on_save_profile_done : M unit :=
  _ ← read_attr profile_name;
  let stream := ["com"] in
  do_call (Cortex (sub_request stream)).

Definition on_get_mc_active_action_done (data : pyval) : M unit :=
  name ← read_attr profile_name;
  get_sensitivity name.

Definition on_mc_action_sensitivity_done (data : pyval) : M unit :=
  if isinstance_list data then
    let new_values := [5; 5; 7; 7]%Z in
    name ← read_attr profile_name;
    set_sensitivity name new_values
  else
    name ← read_attr profile_name;
    save_profile name.

(** [error_data['code']] and [error_data['message']] are the arguments;
    the code [cortex.ERR_PROFILE_ACCESS_DENIED] of the client module is a
    parameter. *)
Definition on_inform_error (ERR_PROFILE_ACCESS_DENIED : Z)
    (error_code : Z) (error_message : string) : M unit :=
  if Z.eqb error_code ERR_PROFILE_ACCESS_DENIED then
    do_call (Cortex disconnect_headset)
  else ret tt.

(** *** The forwarder and the log sink *)

Definition host : string := "192.168.1.124".
Definition port : Z := 5000.

(** [with socket.socket(...) as s: s.connect(...); s.sendall(comando)] *)
Definition envioporsocket (w : world) (comando : list Byte.byte) : M unit :=
  do_call SocketNew;;
  do_call (SocketConnect host port);;
  match sock w with
  | ConnectRaises => do_call SocketClose;; raise OSError
  | SendallRaises =>
      do_call (SocketSendall comando);; do_call SocketClose;; raise OSError
  | SocketOk => do_call (SocketSendall comando);; do_call SocketClose
  end.

Definition newline : string := String (ascii_of_nat 10) EmptyString.

(** [with open(nombre_archivo, 'a') as archivo: archivo.write(str(datos) + '\n')] *)
Definition guardar_datos_en_csv (w : world) (datos nombre_archivo : string) : M unit :=
  do_call (FileOpen nombre_archivo "a");;
  match file w with
  | OpenRaises => raise OSError
  | WriteRaises =>
      let datos_str := datos ++ newline in
      do_call (FileWrite datos_str);; do_call FileClose;; raise OSError
  | FileOk =>
      let datos_str := datos ++ newline in
      do_call (FileWrite datos_str);; do_call FileClose
  end.

(** *** The vote *)

(** [{word: history.count(word) for word in target_words}]: a dict keeps
    its keys in insertion order. *)
Definition counts_of (history : list string) : list (string * nat) :=
  (fun word => (word, Deque.count word history)) <$> target_words.

(** [d.get(k)] *)
Definition dict_get (d : list (string * nat)) (k : string) : option nat :=
  snd <$> List.find (fun kv => String.eqb (fst kv) k) d.

(** [a > b] on what [d.get] returns for keys of [d] *)
Definition gt (a b : option nat) : bool :=
  match a, b with
  | Some x, Some y => (y <? x)%nat
  | _, _ => false
  end.

(** The loop of [max(iterable, key=...)]: a later item replaces the best
    so far only when its key is strictly greater. *)
Fixpoint max_from (key : string -> option nat) (best : string)
    (rest : list string) : string :=
  match rest with
  | [] => best
  | item :: rest' =>
      if gt (key item) (key best) then max_from key item rest'
      else max_from key best rest'
  end.

(** [max(d, key=d.get)] iterates the keys of [d]. *)
Definition py_max (d : list (string * nat)) : exn + string :=
  match fst <$> d with
  | [] => inl (ValueError "max() arg is an empty sequence")
  | k :: ks => inr (max_from (dict_get d) k ks)
  end.

(** [d[k]] *)
Definition getitem (d : list (string * nat)) (k : string) : exn + nat :=
  match dict_get d k with
  | Some n => inr n
  | None => inl KeyError
  end.

Definition datos_txt : string :=
  "C:/Users/James/Desktop/cortex-v2-example-master/datos.txt".

(** *** The sample handler *)

Definition on_new_com_data (w : world) (data : pyval) : M unit :=
  if truthy data then
    action ← lift (get data "action" (VStr ""));
    command ← lift (lower action);
    history ← read command_history;
    update (set_command_history (Deque.append command history));;
    let current_time := clock w in
    last ← read last_print_time;
    if Qle_bool 8 (current_time - last) then
      history ← read command_history;
      let counts := counts_of history in
      majority_word ← lift (py_max counts);
      majority_count ← lift (getitem counts majority_word);
      if (20 <=? majority_count)%nat then
        guardar_datos_en_csv w majority_word datos_txt;;
        let comando := majority_word in
        let comando_encoded := encode_utf8 comando in
        envioporsocket w comando_encoded;;
        update (set_last_print_time current_time)
      else ret tt
    else ret tt
  else ret tt.

(** ** Sequences of sample events

    Each event is handled on the instance as the previous handler left it,
    also when that handler raised. *)

Definition sample : Type := world * pyval.

Definition handle (self : LiveAdvance) (ev : sample) : run unit :=
  on_new_com_data (fst ev) (snd ev) self.

Definition feed_samples (self : LiveAdvance) (evs : list sample) : LiveAdvance :=
  foldl (fun s ev => after (handle s ev)) self evs.

(** Observations on one handled event. *)

Definition is_forward (c : call) : bool :=
  match c with SocketSendall _ => true | _ => false end.

Definition is_log (c : call) : bool :=
  match c with FileWrite _ => true | _ => false end.

(** The forward was made and the handler ran to its end. *)
Definition forwarded (r : run unit) : bool :=
  returned r && existsb is_forward (calls r).

(** A decision was attempted: the handler reached the log sink. *)
Definition attempted (r : run unit) : bool :=
  match calls r with [] => false | _ :: _ => true end.

(** A payload as the Cortex client builds it. *)
Definition com_data (action : string) (power time : Q) : pyval :=
  VDict (<["action" := VStr action]>
        (<["power" := VFloat power]>
        (<["time" := VFloat time]> ∅))).

(** ** Vocabulary of the statements *)

(** The label a payload carries once normalised: [data.get('action', '').lower()]. *)
Definition command_of (data : pyval) : exn + string :=
  match get data "action" (VStr "") with
  | inl e => inl e
  | inr action => lower action
  end.

(** The instance once the label is appended to the window. *)
Definition appended (command : string) (self : LiveAdvance) : LiveAdvance :=
  set_command_history (Deque.append command (command_history self)) self.

(** The gate test [current_time - self.last_print_time >= 8]. *)
Definition gate_open (w : world) (self : LiveAdvance) : bool :=
  Qle_bool 8 (clock w - last_print_time self).

(** The count of one word in a window. *)
Definition tally (history : list string) (word : string) : nat :=
  Deque.count word history.

(** The greatest count over the target vocabulary. *)
Definition max_count (history : list string) : nat :=
  max_list (tally history <$> target_words).

(** [w] is where the maximum of [f] over [l] is first reached. *)
Definition first_max (f : string -> nat) (l : list string) (w : string) : Prop :=
  exists i, l !! i = Some w /\
    (forall j x, l !! j = Some x -> f x <= f w) /\
    (forall j x, j < i -> l !! j = Some x -> f x < f w).

(** The word the vote selects, and its count. *)
Definition majority_word (history : list string) : string :=
  match py_max (counts_of history) with inr w => w | inl _ => "" end.

Definition majority_count (history : list string) : nat :=
  tally history (majority_word history).

(** The calls of a log append and of a forward that run to their end. *)
Definition log_calls (word : string) : list call :=
  [FileOpen datos_txt "a"; FileWrite (word ++ newline); FileClose].

Definition forward_calls (word : string) : list call :=
  [SocketNew; SocketConnect host port; SocketSendall (encode_utf8 word);
   SocketClose].

Definition is_socket (c : call) : bool :=
  match c with
  | SocketNew | SocketConnect _ _ | SocketSendall _ | SocketClose => true
  | _ => false
  end.

(** The decision was written to the log and sent on the socket. *)
Definition logged_and_forwarded (r : run unit) : bool :=
  existsb is_log (calls r) && existsb is_forward (calls r).

(** A read result of the sensitivity query: a list of numbers. *)
Definition is_number (v : pyval) : bool :=
  match v with VInt _ | VFloat _ => true | _ => false end.

Definition numeric_list (v : pyval) : bool :=
  match v with VList l => forallb is_number l | _ => false end.

(** The samples of a list carry the labels [cs], in order. *)
Definition carry (evs : list sample) (cs : list string) : Prop :=
  Forall2 (fun ev c => truthy (snd ev) = true /\ command_of (snd ev) = inr c)
          evs cs.

(** A call on the Cortex client. *)
Definition is_cortex_call (c : call) : bool :=
  match c with Cortex _ => true | _ => false end.

(** The callbacks in the order of the workflow that [start] documents:
    session created, catalog received, profile loaded, active actions
    received, sensitivity read, sensitivity set, profile saved. *)
Definition setup_workflow (name headsetId : string) (catalog : list string)
    (actions sensitivity ack : pyval) : M unit :=
  start name headsetId;;
  on_create_session_done;;
  on_query_profile_done catalog;;
  on_load_unload_profile_done true;;
  on_get_mc_active_action_done actions;;
  on_mc_action_sensitivity_done sensitivity;;
  on_mc_action_sensitivity_done ack;;
  on_save_profile_done.

(** Inputs used in the examples below. *)
Definition nineteen_left : LiveAdvance :=
  set_command_history (replicate 19 "left") __init__.

Definition left_sample : pyval := com_data "Left" 0.9 100.

(** * Properties *)

(** ** The vote *)

Section Vote.

Variable history : list string.

Lemma dict_get_fmap (f : string -> nat) (l : list string) (k : string) :
  dict_get ((fun word => (word, f word)) <$> l) k =
  if contains k l then Some (f k) else None.
Proof.
  unfold dict_get, contains.
  induction l as [|x l IH]; simpl; [reflexivity|].
  rewrite (String.eqb_sym k x).
  destruct (String.eqb_spec x k) as [->|Hne]; simpl; [reflexivity|].
  exact IH.
Qed.

Lemma contains_elem_of (k : string) (l : list string) :
  contains k l = true <-> k ∈ l.
Proof.
  unfold contains. rewrite existsb_exists, list_elem_of_In.
  split.
  - intros (x & Hin & Heq). apply String.eqb_eq in Heq. by subst.
  - intros Hin. exists k. split; [done|apply String.eqb_refl].
Qed.

Lemma dict_get_counts_of (word : string) :
  word ∈ target_words ->
  dict_get (counts_of history) word = Some (tally history word).
Proof.
  intros Hin. unfold counts_of. rewrite dict_get_fmap.
  apply contains_elem_of in Hin. by rewrite Hin.
Qed.

Lemma first_max_singleton (f : string -> nat) (w : string) :
  first_max f [w] w.
Proof.
  exists 0. split; [reflexivity|]. split.
  - intros [|j] x Hx; simpl in Hx; [|by destruct j].
    injection Hx as <-. lia.
  - intros j x Hj. lia.
Qed.

(** The loop invariant of [max]: the best so far is the first maximum of
    the items seen. *)
Lemma max_from_first_max (key : string -> option nat) (f : string -> nat) :
  forall rest seen best,
    Forall (fun x => key x = Some (f x)) (seen ++ rest) ->
    first_max f seen best ->
    first_max f (seen ++ rest) (max_from key best rest).
Proof.
  induction rest as [|item rest IH]; intros seen best Hkey Hbest; simpl.
  - by rewrite app_nil_r.
  - assert (Hitem : key item = Some (f item)).
    { rewrite Forall_forall in Hkey. apply Hkey. set_solver. }
    assert (Hb : key best = Some (f best)).
    { destruct Hbest as (i & Hi & _). rewrite Forall_forall in Hkey.
      apply Hkey. apply elem_of_app. left. by eapply list_elem_of_lookup_2. }
    rewrite Hitem, Hb. simpl.
    replace (seen ++ item :: rest)%list with ((seen ++ [item]) ++ rest)%list in *
      by (by rewrite <- app_assoc).
    destruct Hbest as (i & Hi & Hle & Hlt).
    assert (Hilt : i < length seen) by (by eapply lookup_lt_Some).
    destruct (Nat.ltb_spec (f best) (f item)) as [Hgt|Hngt]; apply IH; try done.
    + exists (length seen). split; [|split].
      * rewrite lookup_app_r by lia. by rewrite Nat.sub_diag.
      * intros j x Hx. apply lookup_app_Some in Hx as [Hx|[Hj Hx]].
        -- specialize (Hle j x Hx). lia.
        -- destruct (j - length seen) as [|n]; simpl in Hx; [|by destruct n].
           injection Hx as <-. lia.
      * intros j x Hj Hx. rewrite lookup_app_l in Hx by lia.
        specialize (Hle j x Hx). lia.
    + exists i. split; [|split].
      * by rewrite lookup_app_l.
      * intros j x Hx. apply lookup_app_Some in Hx as [Hx|[Hj Hx]].
        -- by eapply Hle.
        -- destruct (j - length seen) as [|n]; simpl in Hx; [|by destruct n].
           injection Hx as <-. lia.
      * intros j x Hj Hx. rewrite lookup_app_l in Hx by lia.
        by eapply Hlt.
Qed.

Lemma first_max_unique (f : string -> nat) (l : list string) (w1 w2 : string) :
  first_max f l w1 -> first_max f l w2 -> w1 = w2.
Proof.
  intros (i1 & Hi1 & Hle1 & Hlt1) (i2 & Hi2 & Hle2 & Hlt2).
  destruct (Nat.lt_trichotomy i1 i2) as [Hlt|[Heq|Hgt]].
  - specialize (Hlt2 i1 w1 Hlt Hi1). specialize (Hle1 i2 w2 Hi2). lia.
  - subst i2. congruence.
  - specialize (Hlt1 i2 w2 Hgt Hi2). specialize (Hle2 i1 w1 Hi1). lia.
Qed.

Lemma py_max_counts_of :
  py_max (counts_of history) = inr (majority_word history).
Proof. reflexivity. Qed.

Lemma majority_word_first_max :
  first_max (tally history) target_words (majority_word history).
Proof.
  change (first_max (tally history)
            (["drop"] ++ ["right"; "left"; "lift"; "neutral"])%list
            (max_from (dict_get (counts_of history)) "drop"
                      ["right"; "left"; "lift"; "neutral"])).
  apply max_from_first_max.
  - apply Forall_forall. intros w Hw. by apply dict_get_counts_of.
  - apply first_max_singleton.
Qed.

Lemma majority_word_target : majority_word history ∈ target_words.
Proof.
  destruct majority_word_first_max as (i & Hi & _).
  by eapply list_elem_of_lookup_2.
Qed.

Lemma getitem_majority_word :
  getitem (counts_of history) (majority_word history)
  = inr (majority_count history).
Proof.
  unfold getitem. by rewrite (dict_get_counts_of _ majority_word_target).
Qed.

Lemma max_list_upper (ns : list nat) (m : nat) :
  (forall n, n ∈ ns -> n <= m) -> max_list ns <= m.
Proof.
  induction ns as [|n ns IH]; intros H; simpl; [lia|].
  assert (n <= m) by (apply H; set_solver).
  assert (max_list ns <= m) by (apply IH; intros; apply H; set_solver).
  lia.
Qed.

(** The count of the selected word is the greatest count. *)
Lemma majority_count_max : majority_count history = max_count history.
Proof.
  unfold majority_count, max_count.
  destruct majority_word_first_max as (i & Hi & Hle & _).
  apply Nat.le_antisymm.
  - apply max_list_elem_of_le. apply list_elem_of_fmap.
    exists (majority_word history). split; [done|].
    by eapply list_elem_of_lookup_2.
  - apply max_list_upper. intros n Hn.
    apply list_elem_of_fmap in Hn as (x & -> & Hx).
    apply list_elem_of_lookup in Hx as (j & Hj). by eapply Hle.
Qed.

End Vote.

(** C4: at every vote the handler's [max(counts, key=counts.get)] returns a
    word, and that word is the one of [drop, right, left, lift, neutral]
    where the greatest count in the window is first reached in this order;
    its count is what [counts[majority_word]] returns.  The selection is
    fixed by the window: the first maximum is unique. *)
Theorem vote_selects_first_maximum (history : list string) :
  py_max (counts_of history) = inr (majority_word history) /\
  getitem (counts_of history) (majority_word history)
    = inr (max_count history) /\
  first_max (tally history) target_words (majority_word history) /\
  (forall w, first_max (tally history) target_words w ->
             w = majority_word history).
Proof.
  split; [apply py_max_counts_of|].
  split; [rewrite getitem_majority_word; f_equal; apply majority_count_max|].
  split; [apply majority_word_first_max|].
  intros w Hw. eapply first_max_unique; [exact Hw|].
  apply majority_word_first_max.
Qed.

Lemma vote_selects_first_maximum_witness :
  let history := (replicate 20 "neutral" ++ replicate 20 "left")%list in
  first_max (tally history) target_words "left" /\
  "left" = majority_word history.
Proof.
  intros history.
  assert (Hfm : first_max (tally history) target_words "left").
  { exists 2. split; [reflexivity|]. split.
    - intros j x Hj.
      do 5 (destruct j as [|j]; [injection Hj as <-; vm_compute; lia|]).
      discriminate.
    - intros j x Hlt Hj.
      do 2 (destruct j as [|j]; [injection Hj as <-; vm_compute; lia|]).
      lia. }
  split; [exact Hfm|].
  destruct (vote_selects_first_maximum history) as (_ & _ & _ & Huniq).
  exact (Huniq "left" Hfm).
Defined.

(** A window of 20 "left" and 20 "neutral": the tie goes to "left", which
    comes first in the vocabulary, whatever the order in the window. *)
Example vote_tie_left_neutral :
  majority_word (replicate 20 "neutral" ++ replicate 20 "left")%list = "left" /\
  majority_word (replicate 20 "left" ++ replicate 20 "neutral")%list = "left".
Proof. split; vm_compute; reflexivity. Qed.

(** ** The sample handler in closed form *)

Ltac run_step :=
  unfold mbind, M_bind;
  cbn [bind lift ret raise read update do_call value after calls
       set_command_history set_last_print_time command_history last_print_time
       profile_name profile_lists app].

Lemma on_new_com_data_cases (w : world) (data : pyval) (self : LiveAdvance) :
  on_new_com_data w data self =
  if truthy data then
    match command_of data with
    | inl e => Run (inl e) self []
    | inr command =>
        let self1 := appended command self in
        let word := majority_word (command_history self1) in
        if gate_open w self && (20 <=? max_count (command_history self1))%nat then
          match file w with
          | OpenRaises => Run (inl OSError) self1 [FileOpen datos_txt "a"]
          | WriteRaises => Run (inl OSError) self1 (log_calls word)
          | FileOk =>
              match sock w with
              | ConnectRaises =>
                  Run (inl OSError) self1
                    (log_calls word ++
                     [SocketNew; SocketConnect host port; SocketClose])%list
              | SendallRaises =>
                  Run (inl OSError) self1 (log_calls word ++ forward_calls word)%list
              | SocketOk =>
                  Run (inr tt) (set_last_print_time (clock w) self1)
                    (log_calls word ++ forward_calls word)%list
              end
          end
        else Run (inr tt) self1 []
    end
  else Run (inr tt) self [].
Proof.
  unfold on_new_com_data, command_of, gate_open, appended.
  destruct (truthy data); [|reflexivity].
  destruct (get data "action" (VStr "")) as [e|action]; [reflexivity|].
  run_step.
  destruct (lower action) as [e|command]; [reflexivity|].
  run_step.
  destruct (Qle_bool 8 (clock w - last_print_time self)); [|reflexivity].
  run_step.
  rewrite py_max_counts_of. run_step.
  rewrite getitem_majority_word, majority_count_max. run_step.
  cbn [andb].
  destruct (20 <=? max_count _)%nat; [|reflexivity].
  unfold guardar_datos_en_csv, envioporsocket.
  destruct (file w), (sock w); reflexivity.
Qed.

(** ** The bounded window *)

Lemma append_length_le (x : string) (d : list string) :
  length d <= Deque.maxlen -> length (Deque.append x d) <= Deque.maxlen.
Proof.
  unfold Deque.append, Deque.maxlen. intros Hd.
  destruct (Nat.leb_spec 40 (length d)) as [Hfull|Hroom].
  - destruct d as [|y d]; simpl in *; [lia|].
    rewrite length_app. simpl. lia.
  - rewrite length_app. simpl. lia.
Qed.

(** Appending to a window keeps the last 40 labels. *)
Lemma foldl_append_drop (xs d0 : list string) :
  length d0 <= Deque.maxlen ->
  foldl (fun d x => Deque.append x d) d0 xs
  = drop (length d0 + length xs - Deque.maxlen) (d0 ++ xs)%list.
Proof.
  revert d0. induction xs as [|x xs IH]; intros d0 Hd0.
  - simpl. rewrite app_nil_r.
    replace (length d0 + 0 - Deque.maxlen) with 0 by lia. reflexivity.
  - cbn [foldl]. rewrite IH by (by apply append_length_le).
    unfold Deque.append, Deque.maxlen in *.
    destruct (Nat.leb_spec 40 (length d0)) as [Hfull|Hroom].
    + destruct d0 as [|y d0]; simpl in Hfull; [lia|].
      simpl in Hd0. cbn [tail]. rewrite length_app. cbn [length].
      rewrite <- app_assoc. cbn [app].
      replace (S (length d0) + S (length xs) - 40) with (S (length xs)) by lia.
      replace (length d0 + 1 + length xs - 40) with (length xs) by lia.
      reflexivity.
    + rewrite length_app. cbn [length]. rewrite <- app_assoc. cbn [app].
      f_equal. lia.
Qed.

Lemma feed_last (xs : list string) :
  Deque.feed xs = drop (length xs - Deque.maxlen) xs.
Proof.
  unfold Deque.feed. rewrite foldl_append_drop by (simpl; lia). reflexivity.
Qed.

Lemma feed_length (xs : list string) : length (Deque.feed xs) <= Deque.maxlen.
Proof. rewrite feed_last, length_drop. unfold Deque.maxlen. lia. Qed.

Lemma feed_evicts (older : list string) (x : string) (recent : list string) :
  Deque.maxlen <= length recent ->
  Deque.feed (older ++ x :: recent) = Deque.feed recent.
Proof.
  intros Hlen. rewrite !feed_last. unfold Deque.maxlen in *.
  rewrite length_app. cbn [length].
  rewrite drop_app_ge by lia.
  replace (length older + S (length recent) - 40 - length older)
    with (S (length recent - 40)) by lia.
  reflexivity.
Qed.

(** What one handled event does to the window. *)
Lemma handle_history (self : LiveAdvance) (ev : sample) :
  command_history (after (handle self ev)) =
  if truthy (snd ev) then
    match command_of (snd ev) with
    | inl _ => command_history self
    | inr command => Deque.append command (command_history self)
    end
  else command_history self.
Proof.
  unfold handle. rewrite on_new_com_data_cases.
  destruct (truthy (snd ev)); [|reflexivity].
  destruct (command_of (snd ev)) as [e|command]; [reflexivity|].
  cbv zeta.
  destruct (gate_open _ _ && _); [|reflexivity].
  destruct (file (fst ev)), (sock (fst ev)); reflexivity.
Qed.

Lemma handle_length (self : LiveAdvance) (ev : sample) :
  length (command_history self) <= Deque.maxlen ->
  length (command_history (after (handle self ev))) <= Deque.maxlen.
Proof.
  intros H. rewrite handle_history.
  destruct (truthy (snd ev)); [|done].
  destruct (command_of (snd ev)); [done|]. by apply append_length_le.
Qed.

Lemma feed_samples_length (evs : list sample) (self : LiveAdvance) :
  length (command_history self) <= Deque.maxlen ->
  length (command_history (feed_samples self evs)) <= Deque.maxlen.
Proof.
  revert self. induction evs as [|ev evs IH]; intros self H; [done|].
  apply IH. by apply handle_length.
Qed.

Lemma feed_samples_history (evs : list sample) :
  forall (cs : list string) (self : LiveAdvance),
    carry evs cs ->
    command_history (feed_samples self evs)
    = foldl (fun d x => Deque.append x d) (command_history self) cs.
Proof.
  induction evs as [|ev evs IH]; intros cs self Hc.
  - apply Forall2_nil_inv_l in Hc as ->. reflexivity.
  - apply Forall2_cons_inv_l in Hc as (c & cs' & [Ht Hcmd] & Hrest & ->).
    cbn [foldl feed_samples]. unfold feed_samples in IH. rewrite (IH cs') by done.
    rewrite handle_history, Ht, Hcmd. reflexivity.
Qed.

(** C3: the window never holds more than 40 labels, on a fresh instance
    after any sequence of sample events and after any sequence of appends;
    it is the last 40 labels appended.  Once 40 or more labels follow a
    label [x], the window is the one these later labels alone produce, so
    [x] and what came before it count in no tally, also in the handler's
    window after samples carrying these labels. *)
Theorem window_bounded_and_evicting :
  (forall evs : list sample,
     length (command_history (feed_samples __init__ evs)) <= 40) /\
  (forall xs : list string,
     length (Deque.feed xs) <= 40 /\
     Deque.feed xs = drop (length xs - 40) xs) /\
  (forall (older : list string) (x : string) (recent : list string),
     40 <= length recent ->
     Deque.feed (older ++ x :: recent) = Deque.feed recent /\
     forall word,
       tally (Deque.feed (older ++ x :: recent)) word
       = tally (Deque.feed recent) word) /\
  (forall (evs : list sample) (older : list string) (x : string)
          (recent : list string),
     carry evs (older ++ x :: recent) ->
     40 <= length recent ->
     command_history (feed_samples __init__ evs) = Deque.feed recent).
Proof.
  split; [|split; [|split]].
  - intros evs. apply (feed_samples_length evs __init__). simpl. lia.
  - intros xs. split; [apply feed_length|apply feed_last].
  - intros older x recent Hlen.
    rewrite (feed_evicts older x recent Hlen). done.
  - intros evs older x recent Hc Hlen.
    rewrite (feed_samples_history evs _ __init__ Hc).
    apply (feed_evicts older x recent Hlen).
Qed.

Lemma window_bounded_and_evicting_witness :
  40 <= length (replicate 40 "neutral") /\
  tally (Deque.feed (["left"] ++ "drop" :: replicate 40 "neutral")) "drop" = 0.
Proof.
  split; [vm_compute; lia|].
  destruct window_bounded_and_evicting as (_ & _ & Hevict & _).
  destruct (Hevict ["left"] "drop" (replicate 40 "neutral")) as [_ Htally].
  - vm_compute. lia.
  - rewrite Htally. vm_compute. reflexivity.
Defined.

(** C10: for a payload that is missing or empty (any falsy value), the
    handler returns at once: no call is made, and the instance, so the
    window and the time of the last emission, is as it was. *)
Theorem falsy_sample_is_ignored (w : world) (data : pyval) (self : LiveAdvance) :
  truthy data = false ->
  on_new_com_data w data self = Run (inr tt) self [].
Proof.
  intros Hfalsy. rewrite on_new_com_data_cases, Hfalsy. reflexivity.
Qed.

Lemma falsy_sample_is_ignored_witness :
  truthy (VDict ∅) = false /\
  on_new_com_data (World 100 FileOk SocketOk) (VDict ∅) nineteen_left
  = Run (inr tt) nineteen_left [] /\
  on_new_com_data (World 100 FileOk SocketOk) VNone nineteen_left
  = Run (inr tt) nineteen_left [].
Proof.
  split; [reflexivity|].
  split; apply falsy_sample_is_ignored; reflexivity.
Defined.

(** ** The gate check *)

(** A sample that reaches the gate check of [on_new_com_data]. *)
Section GateCheck.

Variables (w : world) (data : pyval) (self : LiveAdvance) (command : string).
Hypothesis Htruthy : truthy data = true.
Hypothesis Hcommand : command_of data = inr command.

Lemma gate_closed :
  gate_open w self = false ->
  on_new_com_data w data self = Run (inr tt) (appended command self) [].
Proof.
  intros Hgate. rewrite on_new_com_data_cases, Htruthy, Hcommand, Hgate.
  reflexivity.
Qed.

Lemma below_threshold :
  max_count (Deque.append command (command_history self)) <= 19 ->
  on_new_com_data w data self = Run (inr tt) (appended command self) [].
Proof.
  intros Hlow. rewrite on_new_com_data_cases, Htruthy, Hcommand. cbv zeta.
  unfold appended at 1. cbn [command_history set_command_history].
  destruct (Nat.leb_spec 20 (max_count (Deque.append command (command_history self))));
    [lia|].
  rewrite andb_false_r. reflexivity.
Qed.

Lemma qualifying :
  gate_open w self = true ->
  20 <= max_count (Deque.append command (command_history self)) ->
  on_new_com_data w data self =
  let self1 := appended command self in
  let word := majority_word (Deque.append command (command_history self)) in
  match file w with
  | OpenRaises => Run (inl OSError) self1 [FileOpen datos_txt "a"]
  | WriteRaises => Run (inl OSError) self1 (log_calls word)
  | FileOk =>
      match sock w with
      | ConnectRaises =>
          Run (inl OSError) self1
            (log_calls word ++ [SocketNew; SocketConnect host port; SocketClose])
      | SendallRaises =>
          Run (inl OSError) self1 (log_calls word ++ forward_calls word)
      | SocketOk =>
          Run (inr tt) (set_last_print_time (clock w) self1)
            (log_calls word ++ forward_calls word)
      end
  end.
Proof.
  intros Hgate Hmax. rewrite on_new_com_data_cases, Htruthy, Hcommand, Hgate.
  cbv zeta. unfold appended at 1 2. cbn [command_history set_command_history].
  destruct (Nat.leb_spec 20 (max_count (Deque.append command (command_history self))));
    [|lia].
  reflexivity.
Qed.

End GateCheck.

(** C1, as the code has it: at a gate check, a window whose greatest count
    is at least 20 makes the handler open the log for the winning word;
    when the log append runs to its end the connection to the forwarder is
    attempted, and when both run to their end the word was written to the
    log, its UTF-8 bytes were sent, the handler returns and the time of the
    last emission is the current time; when the log append raises no socket
    call is made.  A window whose greatest count is at most 19 makes no
    call and leaves the time of the last emission as it was. *)
Theorem gate_check_threshold (w : world) (data : pyval) (self : LiveAdvance)
    (command : string) :
  truthy data = true ->
  command_of data = inr command ->
  gate_open w self = true ->
  let window := Deque.append command (command_history self) in
  let word := majority_word window in
  let r := on_new_com_data w data self in
  command_history (after r) = window /\
  (20 <= max_count window ->
     attempted r = true /\
     (file w = FileOk ->
        In (FileWrite (word ++ newline)) (calls r) /\
        In (SocketConnect host port) (calls r)) /\
     (file w = FileOk -> sock w = SocketOk ->
        calls r = (log_calls word ++ forward_calls word)%list /\
        logged_and_forwarded r = true /\
        value r = inr tt /\
        last_print_time (after r) = clock w) /\
     (file w <> FileOk -> existsb is_socket (calls r) = false)) /\
  (max_count window <= 19 ->
     calls r = [] /\ value r = inr tt /\
     last_print_time (after r) = last_print_time self).
Proof.
  intros Ht Hc Hgate window word r. split; [|split].
  - unfold r.
    apply (eq_trans (handle_history self (w, data))).
    cbn [snd]. rewrite Ht, Hc. reflexivity.
  - intros Hmax. unfold r.
    rewrite (qualifying w data self command Ht Hc Hgate Hmax).
    cbv zeta. fold window. fold word.
    split; [by destruct (file w), (sock w)|].
    split; [|split].
    + intros ->. destruct (sock w); cbn; tauto.
    + intros -> ->. cbn. done.
    + intros Hfile. destruct (file w); [done|reflexivity|reflexivity].
  - intros Hlow. unfold r.
    rewrite (below_threshold w data self command Ht Hc Hlow). done.
Qed.

Lemma gate_check_threshold_witness :
  truthy left_sample = true /\
  command_of left_sample = inr "left" /\
  gate_open (World 100 FileOk SocketOk) nineteen_left = true /\
  calls (on_new_com_data (World 100 FileOk SocketOk) left_sample nineteen_left)
  = (log_calls "left" ++ forward_calls "left")%list.
Proof.
  assert (Ht : truthy left_sample = true) by (vm_compute; reflexivity).
  assert (Hc : command_of left_sample = inr "left") by (vm_compute; reflexivity).
  assert (Hg : gate_open (World 100 FileOk SocketOk) nineteen_left = true)
    by (vm_compute; reflexivity).
  split; [exact Ht|]. split; [exact Hc|]. split; [exact Hg|].
  destruct (gate_check_threshold _ _ _ _ Ht Hc Hg) as (_ & Hq & _).
  destruct Hq as (_ & _ & Hboth & _).
  - vm_compute. lia.
  - destruct Hboth as (Hcalls & _); [reflexivity..|].
    exact Hcalls.
Defined.

(** C1 as stated fails: with 20 "left" in the window at a gate check, a log
    file that cannot be opened makes the handler raise before any write or
    forward. *)
Lemma gate_check_log_failure_forwards_nothing :
  let w := World 100 OpenRaises SocketOk in
  let r := on_new_com_data w left_sample nineteen_left in
  gate_open w nineteen_left = true /\
  max_count (command_history (after r)) = 20 /\
  logged_and_forwarded r = false /\
  existsb is_forward (calls r) = false.
Proof. vm_compute. done. Qed.

(** ** The gate over a sequence of samples *)

Lemma gate_open_iff (w : world) (self : LiveAdvance) :
  gate_open w self = true <-> (8 <= clock w - last_print_time self)%Q.
Proof. unfold gate_open. apply Qle_bool_iff. Qed.

(** One handled event, seen from the gate. *)
Lemma handle_gate (self : LiveAdvance) (ev : sample) :
  let r := handle self ev in
  (attempted r = false /\ forwarded r = false /\
   last_print_time (after r) = last_print_time self) \/
  (attempted r = true /\ gate_open (fst ev) self = true /\
   ((forwarded r = false /\ last_print_time (after r) = last_print_time self) \/
    (forwarded r = true /\ last_print_time (after r) = clock (fst ev)))).
Proof.
  destruct ev as [w data]. unfold handle. cbn [fst snd].
  rewrite on_new_com_data_cases.
  destruct (truthy data); [|by left].
  destruct (command_of data) as [e|command]; [by left|].
  cbv zeta.
  destruct (gate_open w self); [|by left].
  cbn [andb].
  destruct (20 <=? _)%nat; [|by left].
  right. destruct (file w), (sock w); cbn; auto.
Qed.

Lemma handle_attempted_gate (self : LiveAdvance) (ev : sample) :
  attempted (handle self ev) = true -> gate_open (fst ev) self = true.
Proof.
  destruct (handle_gate self ev) as [(Hn & _)|(_ & Hg & _)]; [congruence|done].
Qed.

Lemma handle_forwarded_last (self : LiveAdvance) (ev : sample) :
  forwarded (handle self ev) = true ->
  last_print_time (after (handle self ev)) = clock (fst ev).
Proof.
  destruct (handle_gate self ev) as [(_ & Hn & _)|(_ & _ & [(Hn & _)|(_ & H)])];
    congruence.
Qed.

Lemma handle_forwarded_attempted (self : LiveAdvance) (ev : sample) :
  forwarded (handle self ev) = true -> attempted (handle self ev) = true.
Proof.
  destruct (handle_gate self ev) as [(_ & Hn & _)|(Ha & _)]; congruence.
Qed.

(** The time of the last emission never goes back. *)
Lemma handle_last_mono (self : LiveAdvance) (ev : sample) :
  (last_print_time self <= last_print_time (after (handle self ev)))%Q.
Proof.
  destruct (handle_gate self ev)
    as [(_ & _ & ->)|(_ & Hg & [(_ & ->)|(_ & ->)])]; try lra.
  apply gate_open_iff in Hg. lra.
Qed.

Lemma feed_samples_last_mono (evs : list sample) (self : LiveAdvance) :
  (last_print_time self <= last_print_time (feed_samples self evs))%Q.
Proof.
  revert self. induction evs as [|ev evs IH]; intros self; [cbn; lra|].
  cbn [feed_samples foldl]. unfold feed_samples in IH.
  eapply Qle_trans; [apply (handle_last_mono self ev)|apply IH].
Qed.

(** C2, as the code has it: in any sequence of sample events, a decision
    that was forwarded (the log append and the send ran to their end) at
    clock reading [t] is followed by no attempt at a decision, and so by no
    forward, at any reading [t'] with [t' - t < 8]: every later attempt is
    at least 8 time units after it, whatever the number of samples in
    between. *)
Theorem forwards_are_8_apart (self : LiveAdvance) (before : list sample)
    (ev : sample) (between : list sample) (ev' : sample) :
  let r := handle (feed_samples self before) ev in
  let r' := handle (feed_samples (after r) between) ev' in
  forwarded r = true ->
  attempted r' = true ->
  (8 <= clock (fst ev') - clock (fst ev))%Q.
Proof.
  intros r r' Hfwd Hatt.
  apply handle_forwarded_last in Hfwd. fold r in Hfwd.
  apply handle_attempted_gate, gate_open_iff in Hatt.
  pose proof (feed_samples_last_mono between (after r)) as Hmono.
  rewrite Hfwd in Hmono. lra.
Qed.

Lemma forwards_are_8_apart_witness :
  let ev := (World 100 FileOk SocketOk, left_sample) in
  let ev' := (World 108 FileOk SocketOk, left_sample) in
  forwarded (handle nineteen_left ev) = true /\
  attempted (handle (feed_samples (after (handle nineteen_left ev)) [ev; ev]) ev')
    = true /\
  (8 <= 108 - 100)%Q.
Proof.
  intros ev ev'.
  assert (Hf : forwarded (handle (feed_samples nineteen_left []) ev) = true)
    by (vm_compute; reflexivity).
  assert (Ha : attempted
                 (handle (feed_samples
                            (after (handle (feed_samples nineteen_left []) ev))
                            [ev; ev]) ev') = true)
    by (vm_compute; reflexivity).
  split; [exact Hf|]. split; [exact Ha|].
  exact (forwards_are_8_apart nineteen_left [] ev [ev; ev] ev' Hf Ha).
Defined.

(** C2 as stated fails: a qualifying decision at reading 100 whose connect
    raises is followed, one time unit later, by a further decision, which is
    logged and forwarded. *)
Lemma failed_forward_is_attempted_again :
  let ev := (World 100 FileOk ConnectRaises, left_sample) in
  let ev' := (World 101 FileOk SocketOk, left_sample) in
  let r := handle nineteen_left ev in
  let r' := handle (after r) ev' in
  gate_open (fst ev) nineteen_left = true /\
  max_count (command_history (after r)) = 20 /\
  attempted r = true /\
  (clock (fst ev') - clock (fst ev) < 8)%Q /\
  attempted r' = true /\
  forwarded r' = true.
Proof. vm_compute. done. Qed.

(** ** Failures of the forwarder and of the log sink *)

(** C5, as the code has it: for a qualifying decision whose log append ran
    to its end, the time of the last emission becomes the current time when
    connect and send succeed.  When either raises, the handler raises, the
    time of the last emission is as before, and a later sample that still
    finds 20 or more of a word in the window attempts the decision again,
    however soon it arrives. *)
Theorem gate_advances_only_after_forward (w : world) (data : pyval)
    (self : LiveAdvance) (command : string) :
  truthy data = true ->
  command_of data = inr command ->
  gate_open w self = true ->
  20 <= max_count (Deque.append command (command_history self)) ->
  file w = FileOk ->
  let r := on_new_com_data w data self in
  (sock w = SocketOk ->
     value r = inr tt /\ forwarded r = true /\
     last_print_time (after r) = clock w) /\
  (sock w <> SocketOk ->
     value r = inl OSError /\
     last_print_time (after r) = last_print_time self /\
     forall (w' : world) (data' : pyval) (command' : string),
       truthy data' = true ->
       command_of data' = inr command' ->
       (clock w <= clock w')%Q ->
       20 <= max_count (Deque.append command' (command_history (after r))) ->
       attempted (on_new_com_data w' data' (after r)) = true).
Proof.
  intros Ht Hc Hgate Hmax Hfile r. unfold r.
  rewrite (qualifying w data self command Ht Hc Hgate Hmax), Hfile.
  split.
  - intros ->. done.
  - intros Hsock.
    assert (Hagain : forall s1 : LiveAdvance,
              last_print_time s1 = last_print_time self ->
              forall w' data' command',
                truthy data' = true ->
                command_of data' = inr command' ->
                (clock w <= clock w')%Q ->
                20 <= max_count (Deque.append command' (command_history s1)) ->
                attempted (on_new_com_data w' data' s1) = true).
    { intros s1 Hlast w' data' command' Ht' Hc' Hclock Hmax'.
      assert (Hgate' : gate_open w' s1 = true).
      { apply gate_open_iff. rewrite Hlast.
        apply gate_open_iff in Hgate. lra. }
      rewrite (qualifying w' data' s1 command' Ht' Hc' Hgate' Hmax').
      by destruct (file w'), (sock w'). }
    destruct (sock w); [done| |]; (split; [done|]); (split; [done|]);
      by apply Hagain.
Qed.

Lemma gate_advances_only_after_forward_witness :
  let w := World 100 FileOk SendallRaises in
  let r := on_new_com_data w left_sample nineteen_left in
  truthy left_sample = true /\
  command_of left_sample = inr "left" /\
  gate_open w nineteen_left = true /\
  20 <= max_count (Deque.append "left" (command_history nineteen_left)) /\
  file w = FileOk /\
  sock w <> SocketOk /\
  value r = inl OSError /\
  last_print_time (after r) = last_print_time nineteen_left.
Proof.
  intros w r.
  assert (Ht : truthy left_sample = true) by (vm_compute; reflexivity).
  assert (Hc : command_of left_sample = inr "left") by (vm_compute; reflexivity).
  assert (Hg : gate_open w nineteen_left = true) by (vm_compute; reflexivity).
  assert (Hm : 20 <= max_count (Deque.append "left" (command_history nineteen_left)))
    by (vm_compute; lia).
  assert (Hs : sock w <> SocketOk) by discriminate.
  do 5 (split; [done|]). split; [exact Hs|].
  destruct (gate_advances_only_after_forward w left_sample nineteen_left "left"
              Ht Hc Hg Hm eq_refl) as [_ Hfail].
  destruct (Hfail Hs) as (Hv & Hl & _). split; [exact Hv|exact Hl].
Defined.

(** C5 as stated fails: with 20 "left" in the window at a gate check and a
    connect that raises, the time of the last emission stays 0 instead of
    the current time 100, and the sample that arrives one time unit later
    makes a second forward attempt. *)
Lemma failed_connect_leaves_gate_open :
  let w := World 100 FileOk ConnectRaises in
  let r := on_new_com_data w left_sample nineteen_left in
  let r' := on_new_com_data (World 101 FileOk SocketOk) left_sample (after r) in
  gate_open w nineteen_left = true /\
  max_count (command_history (after r)) = 20 /\
  In (SocketConnect host port) (calls r) /\
  ~ (last_print_time (after r) == clock w)%Q /\
  In (SocketConnect host port) (calls r').
Proof.
  cbv zeta. split; [vm_compute; reflexivity|].
  split; [vm_compute; reflexivity|].
  split; [vm_compute; tauto|].
  split; [vm_compute; discriminate|].
  vm_compute; tauto.
Qed.

(** C6, as the code has it: a log append that raises is not caught.  For a
    qualifying decision whose [open] or [write] raises, the handler raises,
    no socket call is made and the time of the last emission is as before;
    the sample stays appended to the window. *)
Theorem log_failure_stops_the_decision (w : world) (data : pyval)
    (self : LiveAdvance) (command : string) :
  truthy data = true ->
  command_of data = inr command ->
  gate_open w self = true ->
  20 <= max_count (Deque.append command (command_history self)) ->
  file w <> FileOk ->
  let r := on_new_com_data w data self in
  value r = inl OSError /\
  existsb is_socket (calls r) = false /\
  last_print_time (after r) = last_print_time self /\
  command_history (after r) = Deque.append command (command_history self).
Proof.
  intros Ht Hc Hgate Hmax Hfile r. unfold r.
  rewrite (qualifying w data self command Ht Hc Hgate Hmax).
  destruct (file w); done.
Qed.

Lemma log_failure_stops_the_decision_witness :
  let w := World 100 OpenRaises SocketOk in
  let r := on_new_com_data w left_sample nineteen_left in
  truthy left_sample = true /\
  command_of left_sample = inr "left" /\
  gate_open w nineteen_left = true /\
  20 <= max_count (Deque.append "left" (command_history nineteen_left)) /\
  file w <> FileOk /\
  value r = inl OSError /\
  existsb is_socket (calls r) = false.
Proof.
  intros w r.
  assert (Ht : truthy left_sample = true) by (vm_compute; reflexivity).
  assert (Hc : command_of left_sample = inr "left") by (vm_compute; reflexivity).
  assert (Hg : gate_open w nineteen_left = true) by (vm_compute; reflexivity).
  assert (Hm : 20 <= max_count (Deque.append "left" (command_history nineteen_left)))
    by (vm_compute; lia).
  assert (Hf : file w <> FileOk) by discriminate.
  do 4 (split; [done|]). split; [exact Hf|].
  destruct (log_failure_stops_the_decision w left_sample nineteen_left "left"
              Ht Hc Hg Hm Hf) as (Hv & Hs & _).
  split; [exact Hv|exact Hs].
Defined.

(** C6 as stated fails: with 20 "left" in the window at a gate check and a
    log write that raises, nothing is sent on the socket and the time of
    the last emission stays 0 instead of the current time 100. *)
Lemma failed_log_write_blocks_forward :
  let w := World 100 WriteRaises SocketOk in
  let r := on_new_com_data w left_sample nineteen_left in
  gate_open w nineteen_left = true /\
  max_count (command_history (after r)) = 20 /\
  existsb is_socket (calls r) = false /\
  ~ (last_print_time (after r) == clock w)%Q.
Proof.
  cbv zeta. split; [vm_compute; reflexivity|].
  split; [vm_compute; reflexivity|].
  split; [vm_compute; reflexivity|].
  vm_compute; discriminate.
Qed.

(** ** The lifecycle callbacks *)

(** C7: on the catalog of profiles, with the wanted profile name recorded by
    [start], the callback makes exactly one call on the Cortex client: the
    request of the current profile (the load path) when the name is in the
    catalog, the creation of the profile when it is not, and never both. *)
Theorem catalog_load_or_create (self : LiveAdvance) (name : string)
    (data : list string) :
  profile_name self = Some name ->
  let r := on_query_profile_done data self in
  value r = inr tt /\
  length (calls r) = 1 /\
  (name ∈ data -> calls r = [Cortex get_current_profile]) /\
  (name ∉ data -> calls r = [Cortex (setup_profile name "create")]) /\
  (Cortex get_current_profile ∈ calls r <-> name ∈ data) /\
  (Cortex (setup_profile name "create") ∈ calls r <-> name ∉ data).
Proof.
  intros Hname r.
  assert (Hr : r = if contains name data
                   then Run (inr tt) (set_profile_lists data self)
                          [Cortex get_current_profile]
                   else Run (inr tt) (set_profile_lists data self)
                          [Cortex (setup_profile name "create")]).
  { unfold r, on_query_profile_done, mbind, M_bind, bind, update, read_attr.
    cbn [profile_name profile_lists set_profile_lists]. rewrite Hname.
    cbn [profile_name profile_lists set_profile_lists].
    unfold do_call. by destruct (contains name data). }
  rewrite Hr. clear Hr r.
  destruct (contains name data) eqn:Hin; cbn [value calls length].
  - apply contains_elem_of in Hin.
    split; [done|]. split; [done|]. split; [done|].
    split; [intros Hnot; contradiction|]. split.
    + split; [done|]. intros _. by apply list_elem_of_singleton.
    + split; [|intros Hnot; contradiction].
      intros H. apply list_elem_of_singleton in H. discriminate.
  - assert (Hnot : name ∉ data).
    { intros H. apply contains_elem_of in H. congruence. }
    split; [done|]. split; [done|].
    split; [intros H; contradiction|]. split; [done|]. split.
    + split; [|intros H; contradiction].
      intros H. apply list_elem_of_singleton in H. discriminate.
    + split; [done|]. intros _. by apply list_elem_of_singleton.
Qed.

Lemma catalog_load_or_create_witness :
  let self := set_profile_name "Dario2023P2" __init__ in
  profile_name self = Some "Dario2023P2" /\
  calls (on_query_profile_done ["Ana"; "Dario2023P2"] self)
  = [Cortex get_current_profile] /\
  calls (on_query_profile_done ["Ana"] self)
  = [Cortex (setup_profile "Dario2023P2" "create")].
Proof.
  intros self.
  assert (Hname : profile_name self = Some "Dario2023P2") by reflexivity.
  split; [exact Hname|]. split.
  - destruct (catalog_load_or_create self _ ["Ana"; "Dario2023P2"] Hname)
      as (_ & _ & Hload & _).
    apply Hload. apply contains_elem_of. reflexivity.
  - destruct (catalog_load_or_create self _ ["Ana"] Hname)
      as (_ & _ & _ & Hcreate & _).
    apply Hcreate. intros H. apply contains_elem_of in H. discriminate.
Defined.

(** C8: on a sensitivity result, with the wanted profile name recorded, the
    callback makes exactly one call on the Cortex client: for a list (so for
    every list of numbers, the read result) it sets the sensitivity to
    [5, 5, 7, 7]; for anything that is not a list (the acknowledgement of a
    write) it saves the profile. *)
Theorem sensitivity_set_or_save (self : LiveAdvance) (name : string)
    (data : pyval) :
  profile_name self = Some name ->
  let r := on_mc_action_sensitivity_done data self in
  value r = inr tt /\
  length (calls r) = 1 /\
  (isinstance_list data = true ->
     calls r = [Cortex (set_mental_command_action_sensitivity name [5; 5; 7; 7]%Z)]) /\
  (numeric_list data = true ->
     calls r = [Cortex (set_mental_command_action_sensitivity name [5; 5; 7; 7]%Z)]) /\
  (isinstance_list data = false ->
     calls r = [Cortex (setup_profile name "save")]).
Proof.
  intros Hname r.
  assert (Hnum : numeric_list data = true -> isinstance_list data = true).
  { by destruct data. }
  unfold r, on_mc_action_sensitivity_done.
  destruct (isinstance_list data);
    unfold mbind, M_bind, bind, read_attr, set_sensitivity, save_profile, do_call;
    rewrite Hname; cbn [value calls length]; repeat split; try done.
  intros H. apply Hnum in H. discriminate.
Qed.

Lemma sensitivity_set_or_save_witness :
  let self := set_profile_name "Dario2023P2" __init__ in
  profile_name self = Some "Dario2023P2" /\
  calls (on_mc_action_sensitivity_done (VList [VInt 5; VInt 5; VInt 5; VInt 5]) self)
  = [Cortex (set_mental_command_action_sensitivity "Dario2023P2" [5; 5; 7; 7]%Z)] /\
  calls (on_mc_action_sensitivity_done (VStr "success") self)
  = [Cortex (setup_profile "Dario2023P2" "save")].
Proof.
  intros self.
  assert (Hname : profile_name self = Some "Dario2023P2") by reflexivity.
  split; [exact Hname|]. split.
  - destruct (sensitivity_set_or_save self _
                (VList [VInt 5; VInt 5; VInt 5; VInt 5]) Hname)
      as (_ & _ & _ & Hread & _).
    apply Hread. reflexivity.
  - destruct (sensitivity_set_or_save self _ (VStr "success") Hname)
      as (_ & _ & _ & _ & Hack).
    apply Hack. reflexivity.
Defined.

(** C9: [start] with an empty profile name raises [ValueError] at once: no
    call is made on the Cortex client and the instance is as it was.  With
    a non-empty name it does not raise: the name is recorded, passed to the
    client, and the client is opened. *)
Theorem start_validates_profile_name :
  (forall (headsetId : string) (self : LiveAdvance),
     start "" headsetId self
     = Run (inl (ValueError "Empty profile_name. The profile_name cannot be empty."))
           self []) /\
  (forall (name headsetId : string) (self : LiveAdvance),
     name <> "" ->
     let r := start name headsetId self in
     value r = inr tt /\
     profile_name (after r) = Some name /\
     calls r = (Cortex (set_wanted_profile name)
                :: (if String.eqb headsetId "" then []
                    else [Cortex (set_wanted_headset headsetId)])
                ++ [Cortex open])%list).
Proof.
  split; [reflexivity|].
  intros name headsetId self Hne r. unfold r, start.
  apply String.eqb_neq in Hne. rewrite Hne.
  unfold mbind, M_bind, bind, update, do_call, ret.
  by destruct (String.eqb headsetId "").
Qed.

Lemma start_validates_profile_name_witness :
  "Dario2023P2" <> "" /\
  value (start "Dario2023P2" "" __init__) = inr tt /\
  calls (start "Dario2023P2" "" __init__)
  = [Cortex (set_wanted_profile "Dario2023P2"); Cortex open].
Proof.
  assert (Hne : "Dario2023P2" <> "") by discriminate.
  split; [exact Hne|].
  destruct start_validates_profile_name as [_ Hstart].
  destruct (Hstart "Dario2023P2" "" __init__ Hne) as (Hv & _ & Hc).
  split; [exact Hv|exact Hc].
Defined.

(** ** Tallies and the window *)

Lemma count_app (w : string) (d1 d2 : list string) :
  Deque.count w (d1 ++ d2) = Deque.count w d1 + Deque.count w d2.
Proof.
  induction d1 as [|y d1 IH]; simpl; [reflexivity|]. rewrite IH. lia.
Qed.

Lemma count_le_length (w : string) (d : list string) :
  Deque.count w d <= length d.
Proof.
  induction d as [|y d IH]; simpl; [lia|].
  destruct (String.eqb y w); lia.
Qed.

Lemma count_two_le_length (w1 w2 : string) (d : list string) :
  w1 <> w2 -> Deque.count w1 d + Deque.count w2 d <= length d.
Proof.
  intros Hne. induction d as [|y d IH]; simpl; [lia|].
  destruct (String.eqb_spec y w1) as [E1|H1];
    destruct (String.eqb_spec y w2) as [E2|H2]; try congruence; lia.
Qed.

Lemma count_three_le_length (w1 w2 w3 : string) (d : list string) :
  w1 <> w2 -> w1 <> w3 -> w2 <> w3 ->
  Deque.count w1 d + Deque.count w2 d + Deque.count w3 d <= length d.
Proof.
  intros H12 H13 H23. induction d as [|y d IH]; simpl; [lia|].
  destruct (String.eqb_spec y w1) as [E1|H1];
    destruct (String.eqb_spec y w2) as [E2|H2];
    destruct (String.eqb_spec y w3) as [E3|H3]; try congruence; lia.
Qed.

Lemma count_tail (w : string) (d : list string) :
  Deque.count w (tail d) <= Deque.count w d /\
  Deque.count w d <= Deque.count w (tail d) + 1.
Proof.
  destruct d as [|y d]; simpl; [lia|]. destruct (String.eqb y w); lia.
Qed.

Lemma count_append (c w : string) (d : list string) :
  Deque.count w (Deque.append c d) <= Deque.count w d + 1 /\
  Deque.count w d <= Deque.count w (Deque.append c d) + 1 /\
  (c <> w -> Deque.count w (Deque.append c d) <= Deque.count w d).
Proof.
  unfold Deque.append.
  pose proof (count_tail w d) as [Ht1 Ht2].
  destruct (Deque.maxlen <=? length d)%nat; rewrite count_app; simpl;
    destruct (String.eqb_spec c w) as [->|Hne]; repeat split; try lia;
    intros; congruence.
Qed.

Lemma append_length_S (c : string) (d : list string) :
  length (Deque.append c d) <= S (length d).
Proof.
  unfold Deque.append.
  destruct (Deque.maxlen <=? length d)%nat; rewrite length_app; simpl; [|lia].
  destruct d; simpl; lia.
Qed.

Lemma max_count_le (h1 h2 : list string) (k : nat) :
  (forall w, w ∈ target_words -> tally h1 w <= tally h2 w + k) ->
  max_count h1 <= max_count h2 + k.
Proof.
  intros H. unfold max_count. apply max_list_upper. intros n Hn.
  apply list_elem_of_fmap in Hn as (x & -> & Hx).
  specialize (H x Hx).
  assert (tally h2 x <= max_list (tally h2 <$> target_words)).
  { apply max_list_elem_of_le. apply list_elem_of_fmap. by exists x. }
  lia.
Qed.

Lemma max_count_le_length (h : list string) : max_count h <= length h.
Proof.
  unfold max_count. apply max_list_upper. intros n Hn.
  apply list_elem_of_fmap in Hn as (x & -> & Hx). apply count_le_length.
Qed.

(** ** More on the sample handler *)

(** X1: a truthy payload that is not a dict, or a dict whose action is not
    a str, makes the handler raise [AttributeError] before the append: the
    instance is as it was and no call is made. *)
Theorem malformed_sample_raises (w : world) (data : pyval) (self : LiveAdvance) :
  truthy data = true ->
  (forall d, data = VDict d ->
     exists v, d !! "action" = Some v /\ forall s, v <> VStr s) ->
  on_new_com_data w data self = Run (inl AttributeError) self [].
Proof.
  intros Ht Hbad. rewrite on_new_com_data_cases, Ht.
  assert (Hc : command_of data = inl AttributeError).
  { unfold command_of. destruct data as [| | | | |l|d]; try reflexivity.
    destruct (Hbad d eq_refl) as (v & Hv & Hns). cbn [get]. rewrite Hv.
    destruct v; try reflexivity. by destruct (Hns s). }
  by rewrite Hc.
Qed.

Lemma malformed_sample_raises_witness :
  truthy (VStr "left") = true /\
  on_new_com_data (World 100 FileOk SocketOk) (VStr "left") nineteen_left
  = Run (inl AttributeError) nineteen_left [] /\
  on_new_com_data (World 100 FileOk SocketOk)
    (VDict (<["action" := VNone]> ∅)) nineteen_left
  = Run (inl AttributeError) nineteen_left [].
Proof.
  split; [reflexivity|]. split.
  - apply malformed_sample_raises; [reflexivity|]. intros d Hd. discriminate.
  - apply malformed_sample_raises; [vm_compute; reflexivity|].
    intros d Hd. injection Hd as <-. exists VNone.
    split; [vm_compute; reflexivity|]. intros s. discriminate.
Defined.

(** X2: a non-empty dict without the key ['action'] is handled as the
    label [''], which is appended to the window; no count of a target word
    grows. *)
Theorem missing_action_appends_empty_label (w : world)
    (d : gmap string pyval) (self : LiveAdvance) :
  truthy (VDict d) = true ->
  d !! "action" = None ->
  let r := on_new_com_data w (VDict d) self in
  command_history (after r) = Deque.append "" (command_history self) /\
  forall word, word ∈ target_words ->
    tally (command_history (after r)) word <= tally (command_history self) word.
Proof.
  intros Ht Hd r.
  assert (Hh : command_history (after r) = Deque.append "" (command_history self)).
  { unfold r. apply (eq_trans (handle_history self (w, VDict d))).
    cbn [snd]. rewrite Ht. unfold command_of. cbn [get]. rewrite Hd.
    reflexivity. }
  split; [exact Hh|]. intros word Hword. rewrite Hh.
  apply count_append. intros <-.
  apply contains_elem_of in Hword. discriminate.
Qed.

Lemma missing_action_appends_empty_label_witness :
  let d : gmap string pyval := <["power" := VFloat 0.5]> ∅ in
  truthy (VDict d) = true /\
  d !! "action" = None /\
  command_history
    (after (on_new_com_data (World 100 FileOk SocketOk) (VDict d) __init__))
  = [""].
Proof.
  intros d.
  assert (Ht : truthy (VDict d) = true) by (vm_compute; reflexivity).
  assert (Hd : d !! "action" = None) by (vm_compute; reflexivity).
  split; [exact Ht|]. split; [exact Hd|].
  exact (proj1 (missing_action_appends_empty_label
                  (World 100 FileOk SocketOk) d __init__ Ht Hd)).
Defined.

Lemma lower_ascii_idem (c : ascii) : lower_ascii (lower_ascii c) = lower_ascii c.
Proof. destruct c as [[] [] [] [] [] [] [] []]; reflexivity. Qed.

Lemma lower_string_idem (s : string) :
  lower_string (lower_string s) = lower_string s.
Proof.
  induction s as [|c s IH]; simpl; [reflexivity|].
  by rewrite lower_ascii_idem, IH.
Qed.

Lemma com_data_truthy (action : string) (power time : Q) :
  truthy (com_data action power time) = true.
Proof.
  unfold com_data, truthy.
  rewrite !map_size_insert_None; [reflexivity|..].
  - apply lookup_empty.
  - rewrite lookup_insert_ne by done. apply lookup_empty.
  - rewrite !lookup_insert_ne by done. apply lookup_empty.
Qed.

Lemma com_data_command (action : string) (power time : Q) :
  command_of (com_data action power time) = inr (lower_string action).
Proof.
  unfold command_of, com_data. cbn [get]. by rewrite lookup_insert_eq.
Qed.

(** X3: the handler reads a sample only through the lower-cased action:
    two payloads whose actions differ in letter case only, whatever their
    power and time, are handled alike; lower-casing is idempotent. *)
Theorem sample_read_through_lowercase (w : world) (self : LiveAdvance)
    (action action' : string) (power power' time time' : Q) :
  lower_string action = lower_string action' ->
  on_new_com_data w (com_data action power time) self
  = on_new_com_data w (com_data action' power' time') self /\
  on_new_com_data w (com_data (lower_string action) power time) self
  = on_new_com_data w (com_data action power time) self.
Proof.
  intros Heq. rewrite !on_new_com_data_cases, !com_data_truthy, !com_data_command.
  by rewrite Heq, lower_string_idem.
Qed.

Lemma sample_read_through_lowercase_witness :
  lower_string "LeFt" = lower_string "left" /\
  on_new_com_data (World 100 FileOk SocketOk) (com_data "LeFt" 0.2 7) nineteen_left
  = on_new_com_data (World 100 FileOk SocketOk) (com_data "left" 0.9 100) nineteen_left.
Proof.
  assert (H : lower_string "LeFt" = lower_string "left") by reflexivity.
  split; [exact H|].
  exact (proj1 (sample_read_through_lowercase
                  (World 100 FileOk SocketOk) nineteen_left
                  "LeFt" "left" 0.2 0.9 7 100 H)).
Defined.

(** X4: whatever the handler sends was decided by the vote and logged
    first: a payload sent on the socket is the UTF-8 of a target word that
    occurs at least 20 times in the window that includes this sample, the
    gate was open, the log append ran to its end with this word, and the
    connection was made to the fixed endpoint. *)
Theorem sent_payload_is_logged_majority (w : world) (data : pyval)
    (self : LiveAdvance) (payload : list Byte.byte) :
  let r := on_new_com_data w data self in
  In (SocketSendall payload) (calls r) ->
  exists word,
    word ∈ target_words /\
    payload = encode_utf8 word /\
    20 <= tally (command_history (after r)) word /\
    tally (command_history (after r)) word = max_count (command_history (after r)) /\
    gate_open w self = true /\
    file w = FileOk /\
    calls r = (log_calls word ++ forward_calls word)%list.
Proof.
  intros r. unfold r. rewrite on_new_com_data_cases.
  destruct (truthy data); [|intros []].
  destruct (command_of data) as [e|command]; [intros []|].
  cbv zeta. unfold appended. cbn [command_history set_command_history].
  set (window := Deque.append command (command_history self)).
  destruct (gate_open w self); [|intros []]. cbn [andb].
  destruct (Nat.leb_spec 20 (max_count window)) as [Hmax|Hlow]; [|intros []].
  assert (Hword : majority_word window ∈ target_words)
    by apply majority_word_target.
  assert (Hcount : tally window (majority_word window) = max_count window)
    by apply majority_count_max.
  destruct (file w), (sock w); cbn [calls after value];
    unfold appended; cbn [command_history set_command_history set_last_print_time];
    fold window; intros Hin; cbn in Hin;
    repeat (destruct Hin as [Hin|Hin]; try discriminate Hin); try contradiction;
    injection Hin as <-; exists (majority_word window);
    repeat split; try done; lia.
Qed.

Lemma sent_payload_is_logged_majority_witness :
  let r := on_new_com_data (World 100 FileOk SocketOk) left_sample nineteen_left in
  In (SocketSendall (encode_utf8 "left")) (calls r) /\
  exists word, word ∈ target_words /\ encode_utf8 "left" = encode_utf8 word.
Proof.
  intros r.
  assert (Hin : In (SocketSendall (encode_utf8 "left")) (calls r))
    by (vm_compute; tauto).
  split; [exact Hin|].
  destruct (sent_payload_is_logged_majority _ _ _ _ Hin) as (word & Hw & Hp & _).
  exists word. split; [exact Hw|exact Hp].
Defined.

(** X5: the sample handler touches the window and the time of the last
    emission only: the profile name and the stored catalog are as before,
    and no call is made on the Cortex client. *)
Theorem sample_handler_frame (w : world) (data : pyval) (self : LiveAdvance) :
  let r := on_new_com_data w data self in
  profile_name (after r) = profile_name self /\
  profile_lists (after r) = profile_lists self /\
  existsb is_cortex_call (calls r) = false.
Proof.
  intros r. unfold r. rewrite on_new_com_data_cases.
  destruct (truthy data); [|done].
  destruct (command_of data); [done|]. cbv zeta.
  destruct (gate_open w self && _); [|done].
  by destruct (file w), (sock w).
Qed.

Lemma handle_length_S (s : LiveAdvance) (ev : sample) :
  length (command_history (after (handle s ev)))
  <= S (length (command_history s)).
Proof.
  rewrite handle_history. destruct (truthy (snd ev)); [|lia].
  destruct (command_of (snd ev)); [lia|apply append_length_S].
Qed.

Lemma feed_samples_length_le (evs : list sample) (s : LiveAdvance) :
  length (command_history (feed_samples s evs))
  <= length (command_history s) + length evs.
Proof.
  revert s. induction evs as [|ev evs IH]; intros s; [cbn; lia|].
  cbn [feed_samples foldl length]. unfold feed_samples in IH.
  pose proof (IH (after (handle s ev))). pose proof (handle_length_S s ev). lia.
Qed.

(** A window of fewer than 19 labels cannot reach the threshold with one
    more sample. *)
Lemma small_window_quiet (s : LiveAdvance) (ev : sample) :
  length (command_history s) < 19 ->
  calls (handle s ev) = [] /\
  last_print_time (after (handle s ev)) = last_print_time s.
Proof.
  intros Hlen.
  destruct (handle_gate s ev) as [(Hn & _ & Hl)|(Ha & _ & _)].
  - split; [|exact Hl]. unfold attempted in Hn. by destruct (calls _).
  - exfalso. revert Ha. unfold attempted, handle.
    rewrite on_new_com_data_cases.
    destruct (truthy (snd ev)); [|done].
    destruct (command_of (snd ev)) as [?|c]; [done|]. cbv zeta.
    unfold appended at 1. cbn [command_history set_command_history].
    pose proof (max_count_le_length (Deque.append c (command_history s))).
    pose proof (append_length_S c (command_history s)).
    destruct (Nat.leb_spec 20 (max_count (Deque.append c (command_history s))));
      [lia|].
    by rewrite andb_false_r.
Qed.

Lemma small_window_prefix_quiet (evs : list sample) (s : LiveAdvance) :
  length (command_history s) + length evs <= 19 ->
  last_print_time (feed_samples s evs) = last_print_time s.
Proof.
  revert s. induction evs as [|ev evs IH]; intros s Hlen; [reflexivity|].
  cbn [feed_samples foldl length] in *. unfold feed_samples in IH.
  pose proof (handle_length_S s ev).
  destruct (small_window_quiet s ev) as [_ Hl]; [lia|].
  rewrite IH by lia. exact Hl.
Qed.

(** X6: on a fresh instance none of the first 19 samples can produce a
    decision, whatever they carry and whatever the clock reads: no call is
    made and the time of the last emission is still 0. *)
Theorem first_19_samples_decide_nothing (evs : list sample) (ev : sample) :
  length evs < 19 ->
  calls (handle (feed_samples __init__ evs) ev) = [] /\
  last_print_time (after (handle (feed_samples __init__ evs) ev)) = 0%Q.
Proof.
  intros Hlen.
  pose proof (feed_samples_length_le evs __init__) as Hw.
  cbn [command_history __init__ length] in Hw.
  destruct (small_window_quiet (feed_samples __init__ evs) ev) as [Hc Hl];
    [lia|].
  split; [exact Hc|]. rewrite Hl.
  by rewrite small_window_prefix_quiet by (cbn; lia).
Qed.

Lemma first_19_samples_decide_nothing_witness :
  let ev := (World 100 FileOk SocketOk, left_sample) in
  length (replicate 18 ev) < 19 /\
  calls (handle (feed_samples __init__ (replicate 18 ev)) ev) = [].
Proof.
  intros ev.
  assert (H : length (replicate 18 ev) < 19) by (vm_compute; lia).
  split; [exact H|].
  exact (proj1 (first_19_samples_decide_nothing (replicate 18 ev) ev H)).
Defined.

(** X7: over any sequence of samples the time of the last emission never
    goes back, and it is either what it was before the sequence or the
    clock reading of one of its samples. *)
Theorem last_emission_is_a_clock_reading (self : LiveAdvance)
    (evs : list sample) :
  (last_print_time self <= last_print_time (feed_samples self evs))%Q /\
  (last_print_time (feed_samples self evs) = last_print_time self \/
   exists ev, ev ∈ evs /\
     last_print_time (feed_samples self evs) = clock (fst ev)).
Proof.
  split; [apply feed_samples_last_mono|].
  revert self. induction evs as [|ev evs IH]; intros self; [by left|].
  cbn [feed_samples foldl]. unfold feed_samples in IH.
  destruct (IH (after (handle self ev))) as [Hsame|(ev' & Hin & Hev')].
  - rewrite Hsame.
    destruct (handle_gate self ev)
      as [(_ & _ & ->)|(_ & _ & [(_ & ->)|(_ & ->)])]; [by left|by left|].
    right. exists ev. split; [set_solver|done].
  - right. exists ev'. split; [set_solver|done].
Qed.

(** X8: one sample moves every count in the window by at most one, and so
    the greatest count over the vocabulary. *)
Theorem sample_moves_counts_by_one (self : LiveAdvance) (ev : sample)
    (word : string) :
  let before := command_history self in
  let window := command_history (after (handle self ev)) in
  tally window word <= tally before word + 1 /\
  tally before word <= tally window word + 1 /\
  max_count window <= max_count before + 1 /\
  max_count before <= max_count window + 1.
Proof.
  intros before window. unfold window, before. rewrite handle_history.
  destruct (truthy (snd ev)); [|lia].
  destruct (command_of (snd ev)) as [e|c]; [lia|].
  pose proof (count_append c word (command_history self)) as (H1 & H2 & _).
  unfold tally. repeat split; try lia.
  - apply max_count_le. intros w _. apply (count_append c w).
  - apply max_count_le. intros w _. apply (count_append c w).
Qed.

(** X9: a label outside the vocabulary fills the window but cannot win:
    when no target word had 20 occurrences before the sample, a sample with
    such a label makes no call. *)
Theorem foreign_label_cannot_trigger (w : world) (data : pyval)
    (self : LiveAdvance) (command : string) :
  truthy data = true ->
  command_of data = inr command ->
  command ∉ target_words ->
  max_count (command_history self) <= 19 ->
  on_new_com_data w data self = Run (inr tt) (appended command self) [] /\
  max_count (Deque.append command (command_history self))
  <= max_count (command_history self).
Proof.
  intros Ht Hc Hforeign Hlow.
  assert (Hmax : max_count (Deque.append command (command_history self))
                 <= max_count (command_history self) + 0).
  { apply max_count_le. intros word Hword. rewrite Nat.add_0_r.
    apply count_append. by intros ->. }
  split; [|lia].
  apply (below_threshold w data self command Ht Hc). lia.
Qed.

Lemma foreign_label_cannot_trigger_witness :
  let data := com_data "push" 0.8 100 in
  truthy data = true /\
  command_of data = inr "push" /\
  ("push" ∉ target_words) /\
  max_count (command_history nineteen_left) <= 19 /\
  on_new_com_data (World 100 FileOk SocketOk) data nineteen_left
  = Run (inr tt) (appended "push" nineteen_left) [].
Proof.
  intros data.
  assert (Ht : truthy data = true) by (vm_compute; reflexivity).
  assert (Hc : command_of data = inr "push") by (vm_compute; reflexivity).
  assert (Hf : "push" ∉ target_words).
  { intros H. apply contains_elem_of in H. discriminate. }
  assert (Hl : max_count (command_history nineteen_left) <= 19)
    by (vm_compute; lia).
  do 4 (split; [done|]).
  exact (proj1 (foreign_label_cannot_trigger
                  (World 100 FileOk SocketOk) data nineteen_left "push"
                  Ht Hc Hf Hl)).
Defined.

(** X10: in a window of at most 40 labels two different words reach the
    threshold of 20 only when the window is full and split 20 to 20 between
    them; no third label is in the window then. *)
Theorem threshold_tie_is_20_20 (history : list string) (w1 w2 : string) :
  length history <= 40 ->
  w1 <> w2 ->
  20 <= tally history w1 ->
  20 <= tally history w2 ->
  tally history w1 = 20 /\ tally history w2 = 20 /\ length history = 40 /\
  forall w3, w3 <> w1 -> w3 <> w2 -> tally history w3 = 0.
Proof.
  unfold tally. intros Hlen Hne H1 H2.
  pose proof (count_two_le_length w1 w2 history Hne).
  repeat split; try lia.
  intros w3 H31 H32.
  pose proof (count_three_le_length w1 w2 w3 history Hne
                ltac:(congruence) ltac:(congruence)).
  lia.
Qed.

Lemma threshold_tie_is_20_20_witness :
  let history := (replicate 20 "left" ++ replicate 20 "neutral")%list in
  length history <= 40 /\ "left" <> "neutral" /\
  20 <= tally history "left" /\ 20 <= tally history "neutral" /\
  tally history "lift" = 0.
Proof.
  intros history.
  assert (Hl : length history <= 40) by (vm_compute; lia).
  assert (Hne : "left" <> "neutral") by discriminate.
  assert (H1 : 20 <= tally history "left") by (vm_compute; lia).
  assert (H2 : 20 <= tally history "neutral") by (vm_compute; lia).
  do 4 (split; [done|]).
  destruct (threshold_tie_is_20_20 history "left" "neutral" Hl Hne H1 H2)
    as (_ & _ & _ & Hthird).
  apply Hthird; discriminate.
Defined.

(** X11: the dict of counts has the five target words as its keys and no
    other: looking up a target word gives its count in the window, looking
    up any other key raises [KeyError] ([get] gives [None]). *)
Theorem counts_has_the_target_words (history : list string) (k : string) :
  (k ∈ target_words ->
     getitem (counts_of history) k = inr (tally history k) /\
     dict_get (counts_of history) k = Some (tally history k)) /\
  (k ∉ target_words ->
     getitem (counts_of history) k = inl KeyError /\
     dict_get (counts_of history) k = None) /\
  (fst <$> counts_of history) = target_words.
Proof.
  split; [|split].
  - intros Hk. unfold getitem. by rewrite (dict_get_counts_of history k Hk).
  - intros Hk. unfold getitem, counts_of. rewrite dict_get_fmap.
    destruct (contains k target_words) eqn:Hc; [|done].
    apply contains_elem_of in Hc. contradiction.
  - reflexivity.
Qed.

Lemma counts_has_the_target_words_witness :
  let history := ["left"; "push"; "left"] in
  "left" ∈ target_words /\ ("push" ∉ target_words) /\
  getitem (counts_of history) "left" = inr 2 /\
  getitem (counts_of history) "push" = inl KeyError.
Proof.
  intros history.
  assert (H1 : "left" ∈ target_words) by (apply contains_elem_of; reflexivity).
  assert (H2 : "push" ∉ target_words).
  { intros H. apply contains_elem_of in H. discriminate. }
  split; [exact H1|]. split; [exact H2|].
  destruct (counts_has_the_target_words history "left") as (Hin & _ & _).
  destruct (counts_has_the_target_words history "push") as (_ & Hout & _).
  split; [exact (proj1 (Hin H1))|exact (proj1 (Hout H2))].
Defined.

(** X12: the window depends on the payloads only: two sequences of samples
    with the same payloads leave the same window, whatever the clock read
    and whatever the log file and the socket answered. *)
Theorem window_ignores_the_world (self : LiveAdvance) (evs evs' : list sample) :
  (snd <$> evs) = (snd <$> evs') ->
  command_history (feed_samples self evs)
  = command_history (feed_samples self evs').
Proof.
  intros Heq.
  assert (Hgen : forall (l l' : list sample) (s s' : LiveAdvance),
            (snd <$> l) = (snd <$> l') ->
            command_history s = command_history s' ->
            command_history (feed_samples s l)
            = command_history (feed_samples s' l')).
  { induction l as [|e l IH]; intros [|e' l'] s s' Hl Hs; try discriminate;
      [done|].
    cbn in Hl. injection Hl as He Hl.
    cbn [feed_samples foldl]. unfold feed_samples in IH. apply IH; [done|].
    rewrite !handle_history, He, Hs. reflexivity. }
  by apply Hgen.
Qed.

Lemma window_ignores_the_world_witness :
  let evs := [(World 1 FileOk SocketOk, left_sample)] in
  let evs' := [(World 500 OpenRaises ConnectRaises, left_sample)] in
  (snd <$> evs) = (snd <$> evs') /\
  command_history (feed_samples nineteen_left evs)
  = command_history (feed_samples nineteen_left evs').
Proof.
  intros evs evs'.
  assert (H : (snd <$> evs) = (snd <$> evs')) by reflexivity.
  split; [exact H|].
  exact (window_ignores_the_world nineteen_left evs evs' H).
Defined.

(** ** More on the lifecycle callbacks *)

Ltac run_callbacks :=
  unfold mbind, M_bind, bind, update, read_attr, do_call, ret,
    get_active_action, get_sensitivity, set_sensitivity, save_profile;
  cbn [profile_name profile_lists set_profile_name set_profile_lists
       value after calls app].

(** X13: the completion of an unload ([isLoaded] false) makes no call and
    records the empty profile name; the callbacks that follow pass this
    empty name to the client, and a catalog without it makes the controller
    create a profile named ['']. *)
Theorem unload_leaves_empty_name (self : LiveAdvance) (name : string) :
  profile_name self = Some name ->
  let r := on_load_unload_profile_done false self in
  value r = inr tt /\ calls r = [] /\
  profile_name (after r) = Some "" /\
  (forall data,
     calls (on_get_mc_active_action_done data (after r))
     = [Cortex (get_mental_command_action_sensitivity "")]) /\
  (forall data, isinstance_list data = false ->
     calls (on_mc_action_sensitivity_done data (after r))
     = [Cortex (setup_profile "" "save")]) /\
  (forall catalog, "" ∉ catalog ->
     calls (on_query_profile_done catalog (after r))
     = [Cortex (setup_profile "" "create")]).
Proof.
  intros Hname r. unfold r, on_load_unload_profile_done.
  run_callbacks. rewrite Hname. cbn [value after calls app profile_name set_profile_name].
  split; [done|]. split; [done|]. split; [done|]. split; [|split].
  - intros data. reflexivity.
  - intros data Hd. unfold on_mc_action_sensitivity_done. rewrite Hd. reflexivity.
  - intros catalog Hc. unfold on_query_profile_done. run_callbacks.
    destruct (contains "" catalog) eqn:Hin; [|reflexivity].
    apply contains_elem_of in Hin. contradiction.
Qed.

Lemma unload_leaves_empty_name_witness :
  let self := set_profile_name "Dario2023P2" __init__ in
  profile_name self = Some "Dario2023P2" /\
  profile_name (after (on_load_unload_profile_done false self)) = Some "".
Proof.
  intros self.
  assert (H : profile_name self = Some "Dario2023P2") by reflexivity.
  split; [exact H|].
  destruct (unload_leaves_empty_name self "Dario2023P2" H) as (_ & _ & Hn & _).
  exact Hn.
Defined.

(** X14: on an instance on which [start] never ran, every callback that
    reads the profile name raises [AttributeError] and makes no call on the
    client; the catalog callback has stored the catalog by then. *)
Theorem callbacks_before_start_raise (self : LiveAdvance) :
  profile_name self = None ->
  (forall catalog,
     on_query_profile_done catalog self
     = Run (inl AttributeError) (set_profile_lists catalog self) []) /\
  (forall is_loaded,
     on_load_unload_profile_done is_loaded self
     = Run (inl AttributeError) self []) /\
  on_save_profile_done self = Run (inl AttributeError) self [] /\
  (forall data,
     on_get_mc_active_action_done data self
     = Run (inl AttributeError) self []) /\
  (forall data,
     on_mc_action_sensitivity_done data self
     = Run (inl AttributeError) self []).
Proof.
  intros Hnone. repeat split.
  - intros catalog. unfold on_query_profile_done. run_callbacks.
    by rewrite Hnone.
  - intros [|]; unfold on_load_unload_profile_done; run_callbacks;
      by rewrite Hnone.
  - unfold on_save_profile_done. run_callbacks. by rewrite Hnone.
  - intros data. unfold on_get_mc_active_action_done. run_callbacks.
    by rewrite Hnone.
  - intros data. unfold on_mc_action_sensitivity_done.
    destruct (isinstance_list data); run_callbacks; by rewrite Hnone.
Qed.

Lemma callbacks_before_start_raise_witness :
  profile_name __init__ = None /\
  on_save_profile_done __init__ = Run (inl AttributeError) __init__ [].
Proof.
  assert (H : profile_name __init__ = None) by reflexivity.
  split; [exact H|].
  destruct (callbacks_before_start_raise __init__ H) as (_ & _ & Hs & _).
  exact Hs.
Defined.

(** X15: the workflow that [start] documents.  For a non-empty profile
    name, a sensitivity result that is a list and an acknowledgement that
    is not, the callbacks taken in order return, and the calls made on the
    client are, in this order: wanted profile (and headset, when given),
    open, query of the profiles, current profile or creation (by the
    catalog), active actions, sensitivity, new sensitivity [5, 5, 7, 7],
    save, subscription to ['com']; every call that names a profile names
    the one given to [start]. *)
Theorem setup_workflow_calls (self : LiveAdvance) (name headsetId : string)
    (catalog : list string) (actions sensitivity ack : pyval) :
  name <> "" ->
  isinstance_list sensitivity = true ->
  isinstance_list ack = false ->
  let r := setup_workflow name headsetId catalog actions sensitivity ack self in
  value r = inr tt /\
  profile_name (after r) = Some name /\
  profile_lists (after r) = Some catalog /\
  calls r =
    ([Cortex (set_wanted_profile name)] ++
     (if String.eqb headsetId "" then []
      else [Cortex (set_wanted_headset headsetId)]) ++
     [Cortex open; Cortex query_profile;
      (if contains name catalog then Cortex get_current_profile
       else Cortex (setup_profile name "create"));
      Cortex (get_mental_command_active_action name);
      Cortex (get_mental_command_action_sensitivity name);
      Cortex (set_mental_command_action_sensitivity name [5; 5; 7; 7]%Z);
      Cortex (setup_profile name "save");
      Cortex (sub_request ["com"])])%list.
Proof.
  intros Hne Hread Hack r. unfold r, setup_workflow, start,
    on_create_session_done, on_query_profile_done, on_load_unload_profile_done,
    on_get_mc_active_action_done, on_mc_action_sensitivity_done,
    on_save_profile_done.
  apply String.eqb_neq in Hne. rewrite Hne, Hread, Hack.
  destruct (String.eqb headsetId ""); cbn [negb]; run_callbacks;
    destruct (contains name catalog); run_callbacks; done.
Qed.

Lemma setup_workflow_calls_witness :
  "Dario2023P2" <> "" /\
  isinstance_list (VList [VInt 5; VInt 5; VInt 5; VInt 5]) = true /\
  isinstance_list (VStr "success") = false /\
  value (setup_workflow "Dario2023P2" "" ["Dario2023P2"] VNone
           (VList [VInt 5; VInt 5; VInt 5; VInt 5]) (VStr "success") __init__)
  = inr tt.
Proof.
  assert (Hne : "Dario2023P2" <> "") by discriminate.
  split; [exact Hne|]. split; [reflexivity|]. split; [reflexivity|].
  exact (proj1 (setup_workflow_calls __init__ "Dario2023P2" "" ["Dario2023P2"]
                  VNone (VList [VInt 5; VInt 5; VInt 5; VInt 5]) (VStr "success")
                  Hne eq_refl eq_refl)).
Defined.

(** ** The forwarder and the log sink on their own *)

(** X16: [envioporsocket] leaves the instance as it was; it creates one
    socket, connects it to the fixed endpoint and closes it as its last
    call on every path; it returns exactly when connect and sendall
    succeed and raises [OSError] otherwise; what it sends, if anything, is
    the payload it was given. *)
Theorem envioporsocket_scoped (w : world) (comando : list Byte.byte)
    (self : LiveAdvance) :
  let r := envioporsocket w comando self in
  after r = self /\
  (exists middle,
     calls r = ([SocketNew; SocketConnect host port] ++ middle ++ [SocketClose])%list /\
     (middle = [] \/ middle = [SocketSendall comando]) /\
     (sock w = ConnectRaises <-> middle = [])) /\
  (value r = inr tt <-> sock w = SocketOk) /\
  (value r = inl OSError <-> sock w <> SocketOk).
Proof.
  intros r. unfold r, envioporsocket.
  destruct (sock w); run_callbacks; unfold raise; cbn [value after calls app].
  - split; [done|]. split; [|split; split; done].
    exists [SocketSendall comando]. split; [done|]. split; [by right|].
    split; discriminate.
  - split; [done|]. split; [|split; split; done].
    exists []. split; [done|]. split; [by left|]. split; done.
  - split; [done|]. split; [|split; split; done].
    exists [SocketSendall comando]. split; [done|]. split; [by right|].
    split; discriminate.
Qed.

(** X17: [guardar_datos_en_csv] leaves the instance as it was; it opens
    the file it is given in append mode first; when [open] succeeds it
    writes the datum followed by one newline, and nothing else, and closes
    the file, also when the write raises; it returns exactly when both
    succeed and raises [OSError] otherwise. *)
Theorem guardar_datos_en_csv_appends_one_line (w : world)
    (datos nombre_archivo : string) (self : LiveAdvance) :
  let r := guardar_datos_en_csv w datos nombre_archivo self in
  after r = self /\
  (file w = OpenRaises -> calls r = [FileOpen nombre_archivo "a"]) /\
  (file w <> OpenRaises ->
     calls r = [FileOpen nombre_archivo "a"; FileWrite (datos ++ newline);
                FileClose]) /\
  (value r = inr tt <-> file w = FileOk) /\
  (value r = inl OSError <-> file w <> FileOk).
Proof.
  intros r. unfold r, guardar_datos_en_csv.
  destruct (file w); run_callbacks; unfold raise; cbn [value after calls app];
    repeat split; try done.
Qed.

Lemma guardar_datos_en_csv_appends_one_line_witness :
  let w := World 100 WriteRaises SocketOk in
  file w <> OpenRaises /\
  calls (guardar_datos_en_csv w "left" datos_txt __init__)
  = [FileOpen datos_txt "a"; FileWrite ("left" ++ newline); FileClose].
Proof.
  intros w.
  assert (H : file w <> OpenRaises) by discriminate.
  split; [exact H|].
  destruct (guardar_datos_en_csv_appends_one_line w "left" datos_txt __init__)
    as (_ & _ & Hc & _).
  exact (Hc H).
Defined.

(** ** From a fresh instance to the first decision *)

(** X18: on a fresh instance, 20 samples in a row that carry the same
    target word lead to a decision at the 20th: when the clock then reads
    8 or more and the log file and the socket work, the 20th sample logs
    the word, forwards its UTF-8 bytes and sets the time of the last
    emission to the clock reading. *)
Theorem sustained_word_is_forwarded (word : string) (evs : list sample)
    (ev : sample) :
  word ∈ target_words ->
  carry evs (replicate 19 word) ->
  truthy (snd ev) = true ->
  command_of (snd ev) = inr word ->
  (8 <= clock (fst ev))%Q ->
  file (fst ev) = FileOk ->
  sock (fst ev) = SocketOk ->
  let r := handle (feed_samples __init__ evs) ev in
  calls r = (log_calls word ++ forward_calls word)%list /\
  value r = inr tt /\
  last_print_time (after r) = clock (fst ev).
Proof.
  intros Hword Hcarry Ht Hc Hclock Hfile Hsock r.
  set (s := feed_samples __init__ evs) in *.
  assert (Hlen : length evs = 19).
  { apply Forall2_length in Hcarry. by rewrite length_replicate in Hcarry. }
  assert (Hh : command_history s = replicate 19 word).
  { unfold s. rewrite (feed_samples_history evs _ __init__ Hcarry).
    apply (feed_last (replicate 19 word)). }
  assert (Hl : last_print_time s = 0%Q).
  { unfold s. rewrite small_window_prefix_quiet; [done|]. cbn. lia. }
  assert (Hgate : gate_open (fst ev) s = true).
  { apply gate_open_iff. rewrite Hl. lra. }
  assert (Hwin : Deque.append word (command_history s) = replicate 20 word).
  { rewrite Hh. reflexivity. }
  assert (Hvote : max_count (replicate 20 word) = 20 /\
                  majority_word (replicate 20 word) = word).
  { unfold target_words in Hword.
    repeat (apply elem_of_cons in Hword as [->|Hword]);
      [split; vm_compute; reflexivity..|].
    by apply elem_of_nil in Hword. }
  destruct Hvote as [Hmax Hmaj].
  unfold r, handle.
  rewrite (qualifying (fst ev) (snd ev) s word Ht Hc Hgate)
    by (rewrite Hwin, Hmax; lia).
  cbv zeta. rewrite Hwin, Hmaj, Hfile, Hsock. done.
Qed.

Lemma sustained_word_is_forwarded_witness :
  let early := (World 1 OpenRaises ConnectRaises, left_sample) in
  let ev := (World 8 FileOk SocketOk, left_sample) in
  "left" ∈ target_words /\
  carry (replicate 19 early) (replicate 19 "left") /\
  (8 <= clock (fst ev))%Q /\
  calls (handle (feed_samples __init__ (replicate 19 early)) ev)
  = (log_calls "left" ++ forward_calls "left")%list.
Proof.
  intros early ev.
  assert (Hw : "left" ∈ target_words) by (apply contains_elem_of; reflexivity).
  assert (Hc : carry (replicate 19 early) (replicate 19 "left")).
  { unfold carry. cbn [replicate].
    repeat (constructor; [split; vm_compute; reflexivity|]).
    constructor. }
  assert (Hq : (8 <= clock (fst ev))%Q) by (vm_compute; discriminate).
  split; [exact Hw|]. split; [exact Hc|]. split; [exact Hq|].
  exact (proj1 (sustained_word_is_forwarded "left" (replicate 19 early) ev
                  Hw Hc ltac:(vm_compute; reflexivity)
                  ltac:(vm_compute; reflexivity) Hq eq_refl eq_refl)).
Defined.
